(** * GraphViewer: the coordinate transform and the redraw handler

    A shallow embedding of [src/GraphViewer/GraphViewer.cpp]: [ComputePoint],
    [App::CreateDeviceResources], [App::OnResize], [App::OnRender],
    [App::WndProcCore] (the messages it handles) and [App::~App].

    Numbers.  A C++ [double] (or [FLOAT]) is modelled by [Dbl.t]: a finite
    value is an exact rational, and the IEEE special values +inf, -inf and
    NaN are kept with the IEEE rules for them (division by zero, inf - inf,
    0 * inf).  Rounding is idealised away (every finite double is a rational,
    and the operations are taken exact), and zero is unsigned.  The casts
    [(double)x], [(FLOAT)x] and [(FLOAT)y] are then the identity.

    The Direct2D and Win32 host is not code of this repository: its answers
    (the client size, the desktop dpi, whether creating the render target or
    the brush succeeds, the result of [EndDraw]) are inputs of the model. *)

From Stdlib Require Import ZArith QArith Qround Qfield List Lia Lqa Bool.
Import ListNotations.

(** ** Doubles *)
Module Dbl.

Inductive t : Type :=
| Fin (q : Q)
| PInf
| NInf
| NaN.

Definition is_zero (q : Q) : bool := Qeq_bool q 0.
Definition is_pos (q : Q) : bool := negb (Qle_bool q 0).

Definition neg (a : t) : t :=
  match a with
  | Fin p => Fin (- p)
  | PInf => NInf
  | NInf => PInf
  | NaN => NaN
  end.

Definition add (a b : t) : t :=
  match a, b with
  | NaN, _ | _, NaN => NaN
  | Fin p, Fin q => Fin (p + q)
  | PInf, NInf | NInf, PInf => NaN
  | PInf, _ | _, PInf => PInf
  | NInf, _ | _, NInf => NInf
  end.

Definition sub (a b : t) : t := add a (neg b).

Definition mul (a b : t) : t :=
  match a, b with
  | NaN, _ | _, NaN => NaN
  | Fin p, Fin q => Fin (p * q)
  | Fin p, i | i, Fin p =>
      if is_zero p then NaN else if is_pos p then i else neg i
  | PInf, PInf | NInf, NInf => PInf
  | _, _ => NInf
  end.

(** The divisor zero is +0: a nonzero finite value over it is an infinity of
    the dividend's sign, 0/0 is NaN. *)
Definition div (a b : t) : t :=
  match a, b with
  | NaN, _ | _, NaN => NaN
  | Fin p, Fin q =>
      if is_zero q then (if is_zero p then NaN else if is_pos p then PInf else NInf)
      else Fin (p / q)
  | Fin _, _ => Fin 0
  | i, Fin q => if is_zero q then i else if is_pos q then i else neg i
  | _, _ => NaN
  end.

(** Sameness of two values (NaN counts as the same as NaN here; this is not
    the IEEE [==]). *)
Definition eq (a b : t) : Prop :=
  match a, b with
  | Fin p, Fin q => p == q
  | PInf, PInf | NInf, NInf | NaN, NaN => True
  | _, _ => False
  end.

Definition of_Z (z : Z) : t := Fin (inject_Z z).

End Dbl.

Declare Scope dbl_scope.
Delimit Scope dbl_scope with D.
Infix "+" := Dbl.add : dbl_scope.
Infix "-" := Dbl.sub : dbl_scope.
Infix "*" := Dbl.mul : dbl_scope.
Infix "/" := Dbl.div : dbl_scope.

(** ** Data *)

(** [struct InputFunction]: the bounds are finite doubles (the spec's
    PlotSpec has real bounds); [func] may return any double. *)
Record InputFunction : Type := {
  func : Dbl.t -> Dbl.t;
  startX : Q;
  endX : Q;
  startY : Q;
  endY : Q
}.

(** [D2D1_SIZE_F] and [D2D1_POINT_2F]. *)
Record SizeF : Type := { width : Q; height : Q }.
Record Point2F : Type := { px : Dbl.t; py : Dbl.t }.

(** ** [ComputePoint] *)

Definition compute_argX (f : InputFunction) (size : SizeF) (x : Z) : Dbl.t :=
  ((Dbl.of_Z x / Dbl.Fin (width size))
     * (Dbl.Fin (endX f) - Dbl.Fin (startX f))
     + Dbl.Fin (startX f))%D.

Definition ComputePoint (f : InputFunction) (size : SizeF) (x : Z) : Point2F :=
  let argX := compute_argX f size x in
  let value := func f argX in
  let y := (Dbl.Fin (height size)
            - Dbl.Fin (height size)
              * ((value - Dbl.Fin (startY f))
                 / (Dbl.Fin (endY f) - Dbl.Fin (startY f))))%D in
  {| px := Dbl.of_Z x; py := y |}.

(** ** [argX] in binary64 *)






(** ** HRESULT *)

(** A 32-bit signed [HRESULT]; [FAILED] is a negative value. *)
Definition HRESULT := Z.
Definition S_OK : HRESULT := 0%Z.
Definition E_FAIL : HRESULT := (0x80004005 - 2 ^ 32)%Z.
Definition D2DERR_RECREATE_TARGET : HRESULT := (0x8899000C - 2 ^ 32)%Z.
Definition FAILED (hr : HRESULT) : bool := (hr <? 0)%Z.
Definition SUCCEEDED (hr : HRESULT) : bool := (0 <=? hr)%Z.

(** ** Device resources and the application state *)

Inductive Color : Type := White | Red.

(** An [ID2D1HwndRenderTarget]: its size in pixels (set at creation and by
    [Resize]) and the dpi it was created with; [GetSize] reports the size in
    device independent pixels. *)
Record RenderTarget : Type := { rt_pixels : Z * Z; rt_dpi : Q }.

Definition GetSize (rt : RenderTarget) : SizeF :=
  {| width := inject_Z (fst (rt_pixels rt)) * 96 / rt_dpi rt;
     height := inject_Z (snd (rt_pixels rt)) * 96 / rt_dpi rt |}.

Definition Resize (w h : Z) (rt : RenderTarget) : RenderTarget :=
  {| rt_pixels := (w, h); rt_dpi := rt_dpi rt |}.

(** An [ID2D1SolidColorBrush]. *)
Record Brush : Type := { brush_color : Color }.

(** The fields of [App] the handlers use; a null pointer is [None]. *)
Record App : Type := {
  m_inputFunction : InputFunction;
  m_pRenderTarget : option RenderTarget;
  m_pGraphLineBrush : option Brush
}.

Definition set_rt (s : App) (rt : option RenderTarget) : App :=
  {| m_inputFunction := m_inputFunction s; m_pRenderTarget := rt;
     m_pGraphLineBrush := m_pGraphLineBrush s |}.

Definition set_brush (s : App) (b : option Brush) : App :=
  {| m_inputFunction := m_inputFunction s; m_pRenderTarget := m_pRenderTarget s;
     m_pGraphLineBrush := b |}.

(** [App::App]: both resources null. *)
Definition App_new (f : InputFunction) : App :=
  {| m_inputFunction := f; m_pRenderTarget := None; m_pGraphLineBrush := None |}.

(** The host's answers: [GetClientRect], the desktop dpi the render target
    takes, and the outcome of [CreateHwndRenderTarget] and
    [CreateSolidColorBrush] (an object is made when the code succeeds; on
    failure the out pointer stays null). *)
Record Host : Type := {
  client_size : Z * Z;
  desktop_dpi : Q;
  create_rt_hr : HRESULT;
  create_brush_hr : HRESULT
}.

(** ** [App::CreateDeviceResources] *)

(** The render target [CreateHwndRenderTarget] makes: the client area's size
    in pixels, at the desktop dpi (default render target properties). *)
Definition new_rt (h : Host) : RenderTarget :=
  {| rt_pixels := client_size h; rt_dpi := desktop_dpi h |}.

(** Each [TRYRET] returns the failing code at once. *)
Definition CreateDeviceResources (h : Host) (s : App) : App * HRESULT :=
  let (s1, hr1) :=
    match m_pRenderTarget s with
    | Some _ => (s, S_OK)
    | None =>
        let hr := create_rt_hr h in
        if FAILED hr then (s, hr)
        else (set_rt s (Some (new_rt h)), S_OK)
    end in
  if FAILED hr1 then (s1, hr1)
  else
    match m_pGraphLineBrush s1 with
    | Some _ => (s1, S_OK)
    | None =>
        let hr := create_brush_hr h in
        if FAILED hr then (s1, hr)
        else (set_brush s1 (Some {| brush_color := Red |}), S_OK)
    end.

(** ** [App::OnResize] *)

Definition OnResize (w h : Z) (s : App) : App :=
  match m_pRenderTarget s with
  | Some rt => set_rt s (Some (Resize w h rt))
  | None => s
  end.

(** ** [App::OnRender] *)

(** The calls made on the render target between [BeginDraw] and [EndDraw]. *)
Inductive DrawCall : Type :=
| BeginDraw
| SetTransformIdentity
| Clear (c : Color)
| DrawLine (p0 p1 : Point2F) (brush : option Brush) (strokeWidth : Q)
| EndDraw.

(** The loop [for (int x = x0; ...; x++)] run [n] more times: each pass draws
    a line from [prevPoint] to the point of column [x] and moves on. *)
Fixpoint draw_loop (f : InputFunction) (size : SizeF) (brush : option Brush)
    (prevPoint : Point2F) (x : Z) (n : nat) : list DrawCall :=
  match n with
  | O => []
  | S n' =>
      let p := ComputePoint f size x in
      DrawLine prevPoint p brush 2 :: draw_loop f size brush p (x + 1)%Z n'
  end.

(** The frame: [BeginDraw], [SetTransform], [Clear], the lines for
    [x = 1 .. maxX] with [maxX = (int)ceil(rtSize.width)], [EndDraw]. *)
Definition render_calls (f : InputFunction) (rt : RenderTarget) (brush : option Brush)
    : list DrawCall :=
  let rtSize := GetSize rt in
  let prevPoint := ComputePoint f rtSize 0%Z in
  let maxX := Qceiling (width rtSize) in
  BeginDraw :: SetTransformIdentity :: Clear White
    :: draw_loop f rtSize brush prevPoint 1 (Z.to_nat maxX) ++ [EndDraw].

(** [endDrawHr] is what [EndDraw] returns.  On [D2DERR_RECREATE_TARGET] the
    source writes [hr = S_OK();], read here as the constant [S_OK], and then
    releases the render target and the brush.  The result is the new state,
    the returned code and the draw calls made. *)
Definition OnRender (h : Host) (endDrawHr : HRESULT) (s : App)
    : App * HRESULT * list DrawCall :=
  let (s1, hr) := CreateDeviceResources h s in
  if FAILED hr then (s1, hr, [])
  else
    match m_pRenderTarget s1 with
    | None => (s1, hr, []) (* not reached: a success leaves a render target *)
    | Some rt =>
        let calls := render_calls (m_inputFunction s1) rt (m_pGraphLineBrush s1) in
        if Z.eqb endDrawHr D2DERR_RECREATE_TARGET
        then (set_brush (set_rt s1 None) None, S_OK, calls)
        else (s1, endDrawHr, calls)
    end.

(** ** [App::~App] *)

Definition App_destroy (s : App) : App := set_brush (set_rt s None) None.

(** ** [App::WndProcCore] *)

Inductive Message : Type :=
| WM_SIZE (lParam : Z)
| WM_DISPLAYCHANGE
| WM_PAINT
| WM_DESTROY
| WM_OTHER (message : Z).

(** What the handler asks of the window system. *)
Inductive HostEffect : Type :=
| InvalidateRect
| ValidateRect
| WriteToDebugConsole (hr : HRESULT)
| PostQuitMessage (code : Z)
| DefWindowProc.

Definition LOWORD (l : Z) : Z := Z.land l 65535.
Definition HIWORD (l : Z) : Z := Z.land (Z.shiftr l 16) 65535.

(** The new state, the host effects, the draw calls and the [LRESULT]. *)
Definition WndProcCore (h : Host) (endDrawHr : HRESULT) (s : App) (m : Message)
    : App * list HostEffect * list DrawCall * Z :=
  (match m with
  | WM_SIZE lParam => (OnResize (LOWORD lParam) (HIWORD lParam) s, [], [], 0)
  | WM_DISPLAYCHANGE => (s, [InvalidateRect], [], 0)
  | WM_PAINT =>
      let '(s', renderResult, calls) := OnRender h endDrawHr s in
      if SUCCEEDED renderResult then (s', [ValidateRect], calls, 0)
      else (s', [WriteToDebugConsole renderResult], calls, 0)
  | WM_DESTROY => (s, [PostQuitMessage 0], [], 1)
  | WM_OTHER _ => (s, [DefWindowProc], [], 0)
  end)%Z.

(** ** Runs of the message handler *)

(** An event the window delivers: a message with the host's answers for it,
    or the destruction of the [App] object. *)
Inductive Event : Type :=
| Msg (h : Host) (endDrawHr : HRESULT) (m : Message)
| Destroy.

Definition step (s : App) (e : Event) : App :=
  match e with
  | Msg h ed m => fst (fst (fst (WndProcCore h ed s m)))
  | Destroy => App_destroy s
  end.

Definition run (s : App) (es : list Event) : App := fold_left step es s.

(** The state invariant: a brush only alongside a render target. *)
Definition brush_needs_rt (s : App) : Prop :=
  m_pGraphLineBrush s <> None -> m_pRenderTarget s <> None.

(** ** Observations on draw calls *)


Definition line_count (calls : list DrawCall) : nat :=
  length (filter (fun c => match c with DrawLine _ _ _ _ => true | _ => false end) calls).


(** The segments the loop draws for columns [x .. x + n]. *)
Definition segments (f : InputFunction) (size : SizeF) (brush : option Brush)
    (x : Z) (n : nat) : list DrawCall :=
  map (fun i => DrawLine (ComputePoint f size (x + Z.of_nat i))
                         (ComputePoint f size (x + Z.of_nat i + 1)) brush 2)
      (seq 0 n).

(** A plotted function for concrete runs ([sin] of the source has no exact
    rational model): the identity over the source's bounds [0 .. 6] and
    [-1.5 .. 1.5]. *)
Definition example_input : InputFunction :=
  {| func := fun a => a; startX := 0; endX := 6; startY := -3 # 2; endY := 3 # 2 |}.

Definition example_size : SizeF := {| width := 640; height := 480 |}.

(** A host whose creations succeed, with a 640x480 client area at 96 dpi,
    and an [App] drawing on a render target of that size. *)
Definition example_host : Host :=
  {| client_size := (640, 480)%Z; desktop_dpi := 96;
     create_rt_hr := S_OK; create_brush_hr := S_OK |}.

Definition example_app : App :=
  {| m_inputFunction := example_input;
     m_pRenderTarget := Some (new_rt example_host);
     m_pGraphLineBrush := Some {| brush_color := Red |} |}.




(** The identity over [-1.5 .. 1.5] on both axes: column 0 of a surface
    evaluates to [startY] and the last column to [endY]. *)
Definition sym_input : InputFunction :=
  {| func := fun a => a; startX := -3 # 2; endX := 3 # 2; startY := -3 # 2; endY := 3 # 2 |}.


(** Hosts where creating the brush, or the render target, fails. *)
Definition brush_failing_host : Host :=
  {| client_size := (640, 480)%Z; desktop_dpi := 96;
     create_rt_hr := S_OK; create_brush_hr := E_FAIL |}.

Definition rt_failing_host : Host :=
  {| client_size := (640, 480)%Z; desktop_dpi := 96;
     create_rt_hr := E_FAIL; create_brush_hr := S_OK |}.

(** ** [CreateInputFunction] *)

(** The plotted function of the program: the C library's [sin] (a parameter
    here, it has no exact rational model) over [0 .. 6] x [-1.5 .. 1.5]. *)
Definition CreateInputFunction (sin : Dbl.t -> Dbl.t) : InputFunction :=
  {| func := fun x => sin x; startX := 0; endX := 6; startY := -3 # 2; endY := 3 # 2 |}.

(** ** [App::Initialize] *)

(** The host's answers during start-up: [D2D1CreateFactory]'s code, the atom
    [RegisterClassEx] returns (0 on failure), whether [CreateWindow] returns a
    window, [GetLastError] and [GetDesktopDpi]. *)
Record InitHost : Type := {
  factory_hr : HRESULT;
  class_atom : Z;
  window_created : bool;
  last_error : Z;
  dpiX : Q;
  dpiY : Q
}.

Inductive InitEffect : Type :=
| ReportWin32Error (error : Z)
| CreateWindowCall (nWidth nHeight : Z)
| ShowWindowCall
| UpdateWindowCall.

(** [static_cast<int>] of a float: truncation toward zero. *)
Definition float_to_int (q : Q) : Z :=
  if Qle_bool 0 q then Qfloor q else (- Qfloor (- q))%Z.

(** A release build ([DebugBreak] only in debug builds). *)
Definition Initialize (ih : InitHost) : HRESULT * list InitEffect :=
  if FAILED (factory_hr ih) then (factory_hr ih, [])
  else if Z.eqb (class_atom ih) 0 then (E_FAIL, [ReportWin32Error (last_error ih)])
  else
    let create := CreateWindowCall (float_to_int (640 * dpiX ih / 96))
                                   (float_to_int (480 * dpiY ih / 96)) in
    if window_created ih then (S_OK, [create; ShowWindowCall; UpdateWindowCall])
    else (E_FAIL, [create; ReportWin32Error (last_error ih)]).

(** ** [App::Run] and [wWinMain] *)

(** What [GetMessage] returns, in order: [WM_QUIT] (which ends the loop) or a
    message that is translated and dispatched to the window procedure. *)
Inductive QueuedMessage : Type :=
| WM_QUIT (wParam : Z)
| Posted (h : Host) (endDrawHr : HRESULT) (m : Message).

(** [static_cast<int>] of a [WPARAM]: the low 32 bits, as a two's
    complement [int]. *)
Definition to_int32 (w : Z) : Z :=
  let r := (w mod 2 ^ 32)%Z in if (2 ^ 31 <=? r)%Z then (r - 2 ^ 32)%Z else r.

(** The loop; it returns [static_cast<int>(msg.wParam)] of the [WM_QUIT],
    [None] when the messages run out before a [WM_QUIT] (the loop would
    still be waiting). *)
Fixpoint Run (s : App) (q : list QueuedMessage) : App * option Z :=
  match q with
  | [] => (s, None)
  | WM_QUIT w :: _ => (s, Some (to_int32 w))
  | Posted h ed m :: q' => Run (step s (Msg h ed m)) q'
  end.

(** The messages [Run] dispatches, as events, and the [wParam] of the
    [WM_QUIT] that ends it. *)
Fixpoint dispatched (q : list QueuedMessage) : list Event :=
  match q with
  | [] => []
  | WM_QUIT _ :: _ => []
  | Posted h ed m :: q' => Msg h ed m :: dispatched q'
  end.

Fixpoint first_quit (q : list QueuedMessage) : option Z :=
  match q with
  | [] => None
  | WM_QUIT w :: _ => Some w
  | Posted _ _ _ :: q' => first_quit q'
  end.

Definition is_quit (m : QueuedMessage) : bool :=
  match m with WM_QUIT _ => true | Posted _ _ _ => false end.

(** [exitCode] starts at 1 and becomes [Run]'s value only when [CoInitialize]
    and [Initialize] succeed. *)
Definition wWinMain (coinit_hr : HRESULT) (ih : InitHost) (sin : Dbl.t -> Dbl.t)
    (q : list QueuedMessage) : option Z :=
  if SUCCEEDED coinit_hr then
    let app := App_new (CreateInputFunction sin) in
    if SUCCEEDED (fst (Initialize ih)) then snd (Run app q) else Some 1%Z
  else Some 1%Z.

(** ** [App::WndProc] *)

Inductive WindowMessage : Type :=
| WM_CREATE
| Dispatched (m : Message).

(** [userData] says whether the window's [GWLP_USERDATA] holds the [App]
    pointer ([WM_CREATE] stores it); until then every message goes to
    [DefWindowProc], whose result [defResult] is the host's. *)
Definition WndProc (userData : bool) (h : Host) (endDrawHr : HRESULT) (defResult : Z)
    (s : App) (m : WindowMessage) : bool * App * list HostEffect * list DrawCall * Z :=
  match m with
  | WM_CREATE => (true, s, [], [], 1%Z)
  | Dispatched m' =>
      if userData then
        let '(s', eff, calls, r) := WndProcCore h endDrawHr s m' in (true, s', eff, calls, r)
      else (false, s, [DefWindowProc], [], defResult)
  end.

Fixpoint WndProc_run (userData : bool) (s : App)
    (ms : list (Host * HRESULT * Z * WindowMessage)) : bool * App * list DrawCall :=
  match ms with
  | [] => (userData, s, [])
  | (h, ed, d, m) :: ms' =>
      let '(u, s', _, calls, _) := WndProc userData h ed d s m in
      let '(u', s'', calls') := WndProc_run u s' ms' in (u', s'', calls ++ calls')
  end.

(** * Properties *)

(** ** Arithmetic of [Dbl] on finite values *)

Lemma is_zero_false (q : Q) : ~ q == 0 -> Dbl.is_zero q = false.
Proof.
  intros H. unfold Dbl.is_zero. destruct (Qeq_bool q 0) eqn:E; [|reflexivity].
  apply Qeq_bool_iff in E. contradiction.
Qed.

Lemma add_fin (p q : Q) : Dbl.add (Dbl.Fin p) (Dbl.Fin q) = Dbl.Fin (p + q).
Proof. reflexivity. Qed.

Lemma sub_fin (p q : Q) : Dbl.sub (Dbl.Fin p) (Dbl.Fin q) = Dbl.Fin (p - q).
Proof. reflexivity. Qed.

Lemma mul_fin (p q : Q) : Dbl.mul (Dbl.Fin p) (Dbl.Fin q) = Dbl.Fin (p * q).
Proof. reflexivity. Qed.

Lemma div_fin (p q : Q) : ~ q == 0 -> Dbl.div (Dbl.Fin p) (Dbl.Fin q) = Dbl.Fin (p / q).
Proof. intros H. simpl. rewrite (is_zero_false q H). reflexivity. Qed.

Lemma pos_nonzero (q : Q) : 0 < q -> ~ q == 0.
Proof. intros H E. rewrite E in H. discriminate. Qed.

Lemma diff_nonzero (a b : Q) : a < b -> ~ b - a == 0.
Proof. intros H E. apply (Qlt_irrefl b). lra. Qed.

Lemma argX_fin (f : InputFunction) (size : SizeF) (x : Z) :
  0 < width size ->
  compute_argX f size x
  = Dbl.Fin (inject_Z x / width size * (endX f - startX f) + startX f).
Proof.
  intros Hw. unfold compute_argX, Dbl.of_Z.
  rewrite (div_fin _ _ (pos_nonzero _ Hw)), sub_fin, mul_fin, add_fin. reflexivity.
Qed.

Lemma py_fin (f : InputFunction) (size : SizeF) (x : Z) (v : Q) :
  startY f < endY f ->
  func f (compute_argX f size x) = Dbl.Fin v ->
  py (ComputePoint f size x)
  = Dbl.Fin (height size - height size * ((v - startY f) / (endY f - startY f))).
Proof.
  intros Hy Hv. unfold ComputePoint; cbn beta zeta iota delta [py]. rewrite Hv, !sub_fin.
  rewrite (div_fin _ _ (diff_nonzero _ _ Hy)), mul_fin, sub_fin. reflexivity.
Qed.


(** ** The coordinate transform *)

(** C1: for a PlotSpec with [endX > startX] and [endY > startY] and a surface
    of positive width, [ComputePoint] at column [x] returns [(x, y_px)] with
    [argX = (x / width) * (endX - startX) + startX], [value = evaluate(argX)]
    and [y_px = height - height * (value - startY) / (endY - startY)]; when the
    value is finite this is the rational [height - height * (v - startY) /
    (endY - startY)]. *)
Theorem ComputePoint_spec (f : InputFunction) (size : SizeF) (x : Z) :
  startX f < endX f -> startY f < endY f -> 0 < width size ->
  let argX := Dbl.Fin (inject_Z x / width size * (endX f - startX f) + startX f) in
  let value := func f argX in
  compute_argX f size x = argX /\
  ComputePoint f size x
  = {| px := Dbl.of_Z x;
       py := (Dbl.Fin (height size) - Dbl.Fin (height size)
               * ((value - Dbl.Fin (startY f)) / Dbl.Fin (endY f - startY f)))%D |} /\
  (forall v, value = Dbl.Fin v ->
     py (ComputePoint f size x)
     = Dbl.Fin (height size - height size * ((v - startY f) / (endY f - startY f)))).
Proof.
  intros _ Hy Hw argX value.
  assert (Ha : compute_argX f size x = argX) by (apply argX_fin; exact Hw).
  split; [exact Ha|split].
  - unfold ComputePoint. rewrite Ha, (sub_fin (endY f)). reflexivity.
  - intros v Hv. apply py_fin; [exact Hy|]. rewrite Ha. exact Hv.
Qed.

Lemma ComputePoint_spec_witness :
  (startX example_input < endX example_input /\ startY example_input < endY example_input
   /\ 0 < width example_size) /\
  let argX := Dbl.Fin (inject_Z 320 / width example_size
                       * (endX example_input - startX example_input) + startX example_input) in
  let value := func example_input argX in
  compute_argX example_input example_size 320 = argX /\
  ComputePoint example_input example_size 320
  = {| px := Dbl.of_Z 320;
       py := (Dbl.Fin (height example_size) - Dbl.Fin (height example_size)
               * ((value - Dbl.Fin (startY example_input))
                  / Dbl.Fin (endY example_input - startY example_input)))%D |} /\
  (forall v, value = Dbl.Fin v ->
     py (ComputePoint example_input example_size 320)
     = Dbl.Fin (height example_size - height example_size
                * ((v - startY example_input) / (endY example_input - startY example_input)))).
Proof.
  split; [repeat split; reflexivity|].
  apply ComputePoint_spec; reflexivity.
Defined.

(** C6: with [endY > startY] and a surface of positive width, a value equal
    to [startY] is drawn at [y_px = height] and a value equal to [endY] at
    [y_px = 0]. *)
Theorem ComputePoint_y_inversion (f : InputFunction) (size : SizeF) (x : Z) :
  startY f < endY f -> 0 < width size ->
  (Dbl.eq (func f (compute_argX f size x)) (Dbl.Fin (startY f)) ->
     Dbl.eq (py (ComputePoint f size x)) (Dbl.Fin (height size))) /\
  (Dbl.eq (func f (compute_argX f size x)) (Dbl.Fin (endY f)) ->
     Dbl.eq (py (ComputePoint f size x)) (Dbl.Fin 0)).
Proof.
  intros Hy _. pose proof (diff_nonzero _ _ Hy) as Hd.
  destruct (func f (compute_argX f size x)) as [v| | |] eqn:E;
    [|split; intros []..].
  rewrite (py_fin f size x v Hy E). cbn [Dbl.eq].
  split; intros Hv; rewrite Hv; field; exact Hd.
Qed.

Lemma ComputePoint_y_inversion_witness :
  (startY sym_input < endY sym_input /\ 0 < width example_size) /\
  (Dbl.eq (func sym_input (compute_argX sym_input example_size 0)) (Dbl.Fin (startY sym_input)) /\
   Dbl.eq (py (ComputePoint sym_input example_size 0)) (Dbl.Fin (height example_size))) /\
  (Dbl.eq (func sym_input (compute_argX sym_input example_size 640)) (Dbl.Fin (endY sym_input)) /\
   Dbl.eq (py (ComputePoint sym_input example_size 640)) (Dbl.Fin 0)).
Proof.
  assert (Hy : startY sym_input < endY sym_input) by reflexivity.
  assert (Hw : 0 < width example_size) by reflexivity.
  assert (H0 : Dbl.eq (func sym_input (compute_argX sym_input example_size 0))
                      (Dbl.Fin (startY sym_input))) by (vm_compute; reflexivity).
  assert (H1 : Dbl.eq (func sym_input (compute_argX sym_input example_size 640))
                      (Dbl.Fin (endY sym_input))) by (vm_compute; reflexivity).
  split; [split; assumption|]. split.
  - split; [exact H0|]. exact (proj1 (ComputePoint_y_inversion sym_input example_size 0 Hy Hw) H0).
  - split; [exact H1|].
    exact (proj2 (ComputePoint_y_inversion sym_input example_size 640 Hy Hw) H1).
Defined.

(** ** The boundary columns in binary64 *)









(** ** [CreateDeviceResources] *)

Ltac cdr_cases s h :=
  unfold CreateDeviceResources;
  let Ert := fresh "Ert" in let Ecr := fresh "Ecr" in
  let Eb := fresh "Eb" in let Ecb := fresh "Ecb" in
  destruct (m_pRenderTarget s) as [?rt0|] eqn:Ert;
  [| destruct (FAILED (create_rt_hr h)) eqn:Ecr];
  cbn [fst snd FAILED S_OK Z.ltb Z.compare m_pGraphLineBrush m_pRenderTarget set_rt];
  try (destruct (m_pGraphLineBrush s) as [?b0|] eqn:Eb;
       [| destruct (FAILED (create_brush_hr h)) eqn:Ecb]);
  cbn [fst snd FAILED S_OK Z.ltb Z.compare m_pGraphLineBrush m_pRenderTarget
       m_inputFunction set_rt set_brush];
  try rewrite ?Ert, ?Ecr, ?Eb, ?Ecb.

Lemma CDR_input (h : Host) (s : App) :
  m_inputFunction (fst (CreateDeviceResources h s)) = m_inputFunction s.
Proof. cdr_cases s h; reflexivity. Qed.

Lemma CDR_ok (h : Host) (s : App) :
  FAILED (snd (CreateDeviceResources h s)) = false ->
  snd (CreateDeviceResources h s) = S_OK /\
  (exists rt, m_pRenderTarget (fst (CreateDeviceResources h s)) = Some rt) /\
  (exists b, m_pGraphLineBrush (fst (CreateDeviceResources h s)) = Some b).
Proof.
  cdr_cases s h; cbn; intros H;
    first [ discriminate
          | rewrite ?Ecr, ?Ecb in H; discriminate
          | repeat split; eauto ].
Qed.

Lemma CDR_idem (h : Host) (s : App) :
  CreateDeviceResources h (fst (CreateDeviceResources h s)) = CreateDeviceResources h s.
Proof. cdr_cases s h; cbn; rewrite ?Ert, ?Ecr, ?Eb, ?Ecb; reflexivity. Qed.

Lemma CDR_fail (h : Host) (s : App) :
  FAILED (snd (CreateDeviceResources h s)) = true ->
  m_pGraphLineBrush (fst (CreateDeviceResources h s)) = m_pGraphLineBrush s /\
  (m_pRenderTarget (fst (CreateDeviceResources h s)) = m_pRenderTarget s \/
   (m_pRenderTarget s = None /\ snd (CreateDeviceResources h s) = create_brush_hr h /\
    m_pRenderTarget (fst (CreateDeviceResources h s)) = Some (new_rt h))).
Proof.
  cdr_cases s h; cbn; intros H; rewrite ?Ert, ?Ecr, ?Eb, ?Ecb in *;
    try discriminate; auto.
Qed.

(** ** [OnRender] *)

Lemma OnRender_fail (h : Host) (ed : HRESULT) (s : App) :
  FAILED (snd (CreateDeviceResources h s)) = true ->
  OnRender h ed s = (fst (CreateDeviceResources h s), snd (CreateDeviceResources h s), []).
Proof.
  intros H. unfold OnRender. destruct (CreateDeviceResources h s) as [s1 hr].
  cbn in *. rewrite H. reflexivity.
Qed.

Lemma OnRender_ok (h : Host) (ed : HRESULT) (s : App) :
  FAILED (snd (CreateDeviceResources h s)) = false ->
  exists rt,
    m_pRenderTarget (fst (CreateDeviceResources h s)) = Some rt /\
    let s1 := fst (CreateDeviceResources h s) in
    let calls := render_calls (m_inputFunction s) rt (m_pGraphLineBrush s1) in
    OnRender h ed s =
      (if Z.eqb ed D2DERR_RECREATE_TARGET
       then (set_brush (set_rt s1 None) None, S_OK, calls)
       else (s1, ed, calls)).
Proof.
  intros H. destruct (CDR_ok h s H) as [_ [[rt Hrt] _]].
  pose proof (CDR_input h s) as Hi.
  exists rt; split; [exact Hrt|]. cbv zeta. unfold OnRender.
  destruct (CreateDeviceResources h s) as [s1 hr]. cbn in *.
  rewrite H, Hrt, Hi. reflexivity.
Qed.

Lemma OnRender_calls (h : Host) (ed : HRESULT) (s : App) :
  FAILED (snd (CreateDeviceResources h s)) = false ->
  exists rt,
    m_pRenderTarget (fst (CreateDeviceResources h s)) = Some rt /\
    snd (OnRender h ed s)
    = render_calls (m_inputFunction s) rt (m_pGraphLineBrush (fst (CreateDeviceResources h s))).
Proof.
  intros H. destruct (OnRender_ok h ed s H) as [rt [Hrt E]].
  exists rt; split; [exact Hrt|]. rewrite E.
  destruct (Z.eqb ed D2DERR_RECREATE_TARGET); reflexivity.
Qed.

(** ** The loop *)

Lemma draw_loop_segments (f : InputFunction) (size : SizeF) (b : option Brush)
    (x : Z) (n : nat) :
  draw_loop f size b (ComputePoint f size x) (x + 1) n = segments f size b x n.
Proof.
  revert x. induction n as [|n IH]; intros x; [reflexivity|].
  cbn [draw_loop]. rewrite IH. unfold segments. cbn [seq map].
  rewrite <- seq_shift, map_map. f_equal.
  - rewrite Z.add_0_r. reflexivity.
  - apply map_ext. intros i. rewrite Nat2Z.inj_succ.
    f_equal; f_equal; lia.
Qed.

Lemma render_calls_segments (f : InputFunction) (rt : RenderTarget) (b : option Brush) :
  render_calls f rt b
  = BeginDraw :: SetTransformIdentity :: Clear White
      :: segments f (GetSize rt) b 0 (Z.to_nat (Qceiling (width (GetSize rt)))) ++ [EndDraw].
Proof.
  unfold render_calls. rewrite <- draw_loop_segments. reflexivity.
Qed.

Lemma line_count_segments (f : InputFunction) (size : SizeF) (b : option Brush)
    (x : Z) (n : nat) :
  line_count (BeginDraw :: SetTransformIdentity :: Clear White
                :: segments f size b x n ++ [EndDraw]) = n.
Proof.
  unfold line_count, segments. cbn [filter]. rewrite filter_app. cbn [filter].
  rewrite app_nil_r. rewrite <- (length_seq n 0) at 2.
  induction (seq 0 n) as [|i l IHl]; cbn; [reflexivity|]. rewrite IHl. reflexivity.
Qed.

Lemma Qceiling_nonneg (q : Q) : 0 <= q -> (0 <= Qceiling q)%Z.
Proof. intros H. apply (Qceiling_resp_le 0 q) in H. exact H. Qed.

Lemma argX_zero_width (f : InputFunction) (size : SizeF) :
  width size == 0 -> compute_argX f size 0 = Dbl.NaN.
Proof.
  intros Hw. unfold compute_argX, Dbl.of_Z. cbn [Dbl.div].
  replace (Dbl.is_zero (width size)) with true
    by (symmetry; apply Qeq_bool_iff; exact Hw).
  reflexivity.
Qed.

(** ** The redraw *)

(** C2: a redraw that gets its render target and brush clears the surface
    and then, for [x = 1 .. ceil(w)] in order, draws one line from the point
    of column [x - 1] to the point of column [x], with the same brush and the
    stroke width 2: [ceil(w)] lines (for [w >= 0]) joining the columns
    [0 .. ceil(w)]. *)
Theorem OnRender_draws_columns (h : Host) (ed : HRESULT) (s : App) :
  FAILED (snd (CreateDeviceResources h s)) = false ->
  exists rt b,
    m_pRenderTarget (fst (CreateDeviceResources h s)) = Some rt /\
    m_pGraphLineBrush (fst (CreateDeviceResources h s)) = Some b /\
    let size := GetSize rt in
    let n := Z.to_nat (Qceiling (width size)) in
    snd (OnRender h ed s)
    = BeginDraw :: SetTransformIdentity :: Clear White
        :: map (fun i => DrawLine (ComputePoint (m_inputFunction s) size (Z.of_nat i))
                                  (ComputePoint (m_inputFunction s) size (Z.of_nat i + 1))
                                  (Some b) 2)
               (seq 0 n)
        ++ [EndDraw] /\
    line_count (snd (OnRender h ed s)) = n /\
    (0 <= width size -> Z.of_nat n = Qceiling (width size)).
Proof.
  intros H. destruct (CDR_ok h s H) as [_ [_ [b Hb]]].
  destruct (OnRender_calls h ed s H) as [rt [Hrt Hc]].
  exists rt, b. split; [exact Hrt|]. split; [exact Hb|]. cbv zeta.
  rewrite Hc, Hb, render_calls_segments.
  split; [reflexivity|]. split; [apply line_count_segments|].
  intros Hw. apply Z2Nat.id, Qceiling_nonneg, Hw.
Qed.

Lemma OnRender_draws_columns_witness :
  FAILED (snd (CreateDeviceResources example_host (App_new example_input))) = false /\
  exists rt b,
    m_pRenderTarget (fst (CreateDeviceResources example_host (App_new example_input))) = Some rt /\
    m_pGraphLineBrush (fst (CreateDeviceResources example_host (App_new example_input))) = Some b /\
    let size := GetSize rt in
    let n := Z.to_nat (Qceiling (width size)) in
    snd (OnRender example_host S_OK (App_new example_input))
    = BeginDraw :: SetTransformIdentity :: Clear White
        :: map (fun i => DrawLine (ComputePoint example_input size (Z.of_nat i))
                                  (ComputePoint example_input size (Z.of_nat i + 1))
                                  (Some b) 2)
               (seq 0 n)
        ++ [EndDraw] /\
    line_count (snd (OnRender example_host S_OK (App_new example_input))) = n /\
    (0 <= width size -> Z.of_nat n = Qceiling (width size)).
Proof.
  split; [reflexivity|].
  apply (OnRender_draws_columns example_host S_OK (App_new example_input)).
  reflexivity.
Defined.

(** C4: when [EndDraw] reports [D2DERR_RECREATE_TARGET], the redraw returns
    [S_OK] with the render target and the brush released, and the paint
    handler validates the window without logging an error. *)
Theorem stale_surface_released (h : Host) (s : App) :
  FAILED (snd (CreateDeviceResources h s)) = false ->
  let r := OnRender h D2DERR_RECREATE_TARGET s in
  snd (fst r) = S_OK /\ SUCCEEDED (snd (fst r)) = true /\
  m_pRenderTarget (fst (fst r)) = None /\ m_pGraphLineBrush (fst (fst r)) = None /\
  snd (fst (fst (WndProcCore h D2DERR_RECREATE_TARGET s WM_PAINT))) = [ValidateRect].
Proof.
  intros H. destruct (OnRender_ok h D2DERR_RECREATE_TARGET s H) as [rt [_ E]].
  cbv zeta in E. rewrite Z.eqb_refl in E. cbv zeta.
  unfold WndProcCore. rewrite E. cbn. repeat split.
Qed.

Lemma stale_surface_released_witness :
  FAILED (snd (CreateDeviceResources example_host example_app)) = false /\
  let r := OnRender example_host D2DERR_RECREATE_TARGET example_app in
  snd (fst r) = S_OK /\ SUCCEEDED (snd (fst r)) = true /\
  m_pRenderTarget (fst (fst r)) = None /\ m_pGraphLineBrush (fst (fst r)) = None /\
  snd (fst (fst (WndProcCore example_host D2DERR_RECREATE_TARGET example_app WM_PAINT)))
  = [ValidateRect].
Proof.
  split; [reflexivity|].
  apply (stale_surface_released example_host example_app). reflexivity.
Defined.

(** C8: two redraws in a row, with the same host answers and no stale signal
    from the first [EndDraw], make the same draw calls. *)
Theorem OnRender_repeat (h : Host) (ed1 ed2 : HRESULT) (s : App) :
  ed1 <> D2DERR_RECREATE_TARGET ->
  snd (OnRender h ed2 (fst (fst (OnRender h ed1 s)))) = snd (OnRender h ed1 s).
Proof.
  intros Hed. destruct (FAILED (snd (CreateDeviceResources h s))) eqn:F.
  - rewrite (OnRender_fail h ed1 s F). cbn [fst snd].
    rewrite OnRender_fail; [reflexivity|]. rewrite CDR_idem. exact F.
  - destruct (OnRender_ok h ed1 s F) as [rt [Hrt E]]. cbv zeta in E.
    apply Z.eqb_neq in Hed. rewrite Hed in E. rewrite E. cbn [fst snd].
    assert (F' : FAILED (snd (CreateDeviceResources h (fst (CreateDeviceResources h s))))
                 = false) by (rewrite CDR_idem; exact F).
    destruct (OnRender_calls h ed2 _ F') as [rt' [Hrt' Hc]].
    rewrite Hc. rewrite CDR_idem in Hrt' |- *. rewrite Hrt in Hrt'.
    injection Hrt' as <-. rewrite CDR_input. reflexivity.
Qed.

Lemma OnRender_repeat_witness :
  S_OK <> D2DERR_RECREATE_TARGET /\
  snd (OnRender example_host S_OK (fst (fst (OnRender example_host S_OK (App_new example_input)))))
  = snd (OnRender example_host S_OK (App_new example_input)).
Proof.
  split; [unfold S_OK, D2DERR_RECREATE_TARGET; lia|].
  apply OnRender_repeat. unfold S_OK, D2DERR_RECREATE_TARGET; lia.
Defined.

(** C9: a zero-width surface is reachable (a [WM_SIZE] of width 0 resizes the
    render target to it); the next redraw draws no line, yet the transform at
    column 0 divides [0 / 0] and its domain value is NaN.  With width 0 the
    domain value of column 0 is NaN for every PlotSpec. *)
Theorem zero_width_redraw (h : Host) (ed : HRESULT) (s : App) (rt : RenderTarget)
    (b : Brush) (hgt : Z) :
  m_pRenderTarget s = Some rt -> m_pGraphLineBrush s = Some b ->
  let s' := OnResize 0 hgt s in
  (exists rt', m_pRenderTarget s' = Some rt' /\ width (GetSize rt') == 0 /\
     compute_argX (m_inputFunction s') (GetSize rt') 0 = Dbl.NaN) /\
  snd (OnRender h ed s') = [BeginDraw; SetTransformIdentity; Clear White; EndDraw] /\
  (forall f size, width size == 0 -> compute_argX f size 0 = Dbl.NaN).
Proof.
  intros Hrt Hb. cbv zeta.
  assert (Hw : width (GetSize (Resize 0 hgt rt)) == 0)
    by (unfold GetSize, Resize, Qeq; reflexivity).
  unfold OnResize. rewrite Hrt.
  split; [|split].
  - exists (Resize 0 hgt rt). split; [reflexivity|]. split; [exact Hw|].
    apply argX_zero_width, Hw.
  - unfold OnRender, CreateDeviceResources. cbn [set_rt m_pRenderTarget m_pGraphLineBrush].
    rewrite Hb. cbn [fst snd FAILED S_OK Z.ltb Z.compare m_pRenderTarget set_rt].
    assert (Hc : Qceiling (width (GetSize (Resize 0 hgt rt))) = 0%Z)
      by (rewrite Hw; reflexivity).
    unfold render_calls. rewrite Hc.
    destruct (ed =? D2DERR_RECREATE_TARGET)%Z; reflexivity.
  - intros f size. apply argX_zero_width.
Qed.

Lemma zero_width_redraw_witness :
  (m_pRenderTarget example_app = Some (new_rt example_host) /\
   m_pGraphLineBrush example_app = Some {| brush_color := Red |}) /\
  let s' := OnResize 0 480 example_app in
  (exists rt', m_pRenderTarget s' = Some rt' /\ width (GetSize rt') == 0 /\
     compute_argX (m_inputFunction s') (GetSize rt') 0 = Dbl.NaN) /\
  snd (OnRender example_host S_OK s')
  = [BeginDraw; SetTransformIdentity; Clear White; EndDraw] /\
  (forall f size, width size == 0 -> compute_argX f size 0 = Dbl.NaN).
Proof.
  split; [split; reflexivity|].
  apply (zero_width_redraw example_host S_OK example_app (new_rt example_host)
           {| brush_color := Red |} 480); reflexivity.
Defined.

(** ** Creation failures *)

Lemma FAILED_not_SUCCEEDED (hr : HRESULT) : FAILED hr = true -> SUCCEEDED hr = false.
Proof.
  unfold FAILED, SUCCEEDED. intros H. apply Z.ltb_lt in H. apply Z.leb_gt. exact H.
Qed.

(** C5 as stated fails: after the brush fails, the render target made in the
    same redraw is kept, so the next redraw does not start from scratch; it
    succeeds even though creating a render target would now fail. *)
Lemma brush_failure_keeps_surface :
  let '(s1, eff, calls, _) :=
    WndProcCore brush_failing_host S_OK (App_new example_input) WM_PAINT in
  eff = [WriteToDebugConsole E_FAIL] /\ calls = [] /\
  m_pRenderTarget s1 = Some (new_rt brush_failing_host) /\
  snd (fst (OnRender rt_failing_host S_OK s1)) = S_OK /\
  line_count (snd (OnRender rt_failing_host S_OK s1)) = 640%nat.
Proof. vm_compute. repeat split. Qed.

(** C5 (amended): when creating the render target or the brush fails, the
    redraw draws nothing and returns the failure code; the paint handler logs
    that code and does not validate the window.  No brush is made, and the
    render target is unchanged unless it was missing and was made in this
    redraw before the brush failed; the next redraw creates only what is still
    missing. *)
Theorem paint_creation_failure (h : Host) (ed : HRESULT) (s : App) :
  FAILED (snd (CreateDeviceResources h s)) = true ->
  let s1 := fst (CreateDeviceResources h s) in
  let hr := snd (CreateDeviceResources h s) in
  snd (OnRender h ed s) = [] /\ snd (fst (OnRender h ed s)) = hr /\
  WndProcCore h ed s WM_PAINT = (s1, [WriteToDebugConsole hr], [], 0%Z) /\
  m_pGraphLineBrush s1 = m_pGraphLineBrush s /\
  (m_pRenderTarget s1 = m_pRenderTarget s \/
   (m_pRenderTarget s = None /\ hr = create_brush_hr h /\ m_pRenderTarget s1 = Some (new_rt h))).
Proof.
  intros H. cbv zeta. pose proof (OnRender_fail h ed s H) as E.
  rewrite E. split; [reflexivity|]. split; [reflexivity|]. split.
  - unfold WndProcCore. rewrite E. rewrite (FAILED_not_SUCCEEDED _ H). reflexivity.
  - apply CDR_fail, H.
Qed.

Lemma paint_creation_failure_witness :
  FAILED (snd (CreateDeviceResources brush_failing_host (App_new example_input))) = true /\
  let s1 := fst (CreateDeviceResources brush_failing_host (App_new example_input)) in
  let hr := snd (CreateDeviceResources brush_failing_host (App_new example_input)) in
  snd (OnRender brush_failing_host S_OK (App_new example_input)) = [] /\
  snd (fst (OnRender brush_failing_host S_OK (App_new example_input))) = hr /\
  WndProcCore brush_failing_host S_OK (App_new example_input) WM_PAINT
  = (s1, [WriteToDebugConsole hr], [], 0%Z) /\
  m_pGraphLineBrush s1 = m_pGraphLineBrush (App_new example_input) /\
  (m_pRenderTarget s1 = m_pRenderTarget (App_new example_input) \/
   (m_pRenderTarget (App_new example_input) = None /\ hr = create_brush_hr brush_failing_host /\
    m_pRenderTarget s1 = Some (new_rt brush_failing_host))).
Proof.
  split; [reflexivity|].
  apply paint_creation_failure. reflexivity.
Defined.

(** ** Points after a resize *)













(** ** The brush never outlives the render target *)

Lemma CDR_inv (h : Host) (s : App) :
  brush_needs_rt s -> brush_needs_rt (fst (CreateDeviceResources h s)).
Proof.
  unfold brush_needs_rt. cdr_cases s h; cbn; rewrite ?Ert, ?Eb;
    intros Hinv Hb; try discriminate; auto.
Qed.

Lemma OnRender_inv (h : Host) (ed : HRESULT) (s : App) :
  brush_needs_rt s -> brush_needs_rt (fst (fst (OnRender h ed s))).
Proof.
  intros Hinv. destruct (FAILED (snd (CreateDeviceResources h s))) eqn:F.
  - rewrite (OnRender_fail h ed s F). apply CDR_inv, Hinv.
  - destruct (OnRender_ok h ed s F) as [rt [_ E]]. cbv zeta in E. rewrite E.
    destruct (ed =? D2DERR_RECREATE_TARGET)%Z.
    + intros Hb. exfalso. apply Hb. reflexivity.
    + apply CDR_inv, Hinv.
Qed.

Lemma step_inv (s : App) (e : Event) : brush_needs_rt s -> brush_needs_rt (step s e).
Proof.
  intros Hinv. destruct e as [h ed m|].
  - destruct m as [lParam| | | |]; unfold step, WndProcCore; cbn [fst]; try exact Hinv.
    + unfold OnResize. destruct (m_pRenderTarget s) eqn:E; [|exact Hinv].
      intros _. discriminate.
    + pose proof (OnRender_inv h ed s Hinv) as Hr.
      destruct (OnRender h ed s) as [[s' hr] calls].
      destruct (SUCCEEDED hr); exact Hr.
  - intros Hb. exfalso. apply Hb. reflexivity.
Qed.

(** C10: in every state reached from the constructor by any sequence of
    messages (paint with any host answers, including the stale signal, resize,
    display change, destroy, others) and the destructor, a non-null brush
    comes with a non-null render target. *)
Theorem brush_implies_render_target (f : InputFunction) (es : list Event) :
  brush_needs_rt (run (App_new f) es).
Proof.
  unfold run. assert (H0 : brush_needs_rt (App_new f)) by (intros Hb; exfalso; apply Hb; reflexivity).
  revert H0. generalize (App_new f) as s.
  induction es as [|e es IH]; intros s Hs; [exact Hs|].
  cbn [fold_left]. apply IH, step_inv, Hs.
Qed.

(** * Further properties of the program *)

(** ** [WM_SIZE] *)

Lemma LOWORD_HIWORD_pack (w hh : Z) :
  (0 <= w < 65536)%Z -> (0 <= hh < 65536)%Z ->
  LOWORD (w + hh * 65536) = w /\ HIWORD (w + hh * 65536) = hh.
Proof.
  intros Hw Hh. unfold LOWORD, HIWORD. change 65535%Z with (Z.ones 16).
  rewrite !Z.land_ones by lia. rewrite Z.shiftr_div_pow2 by lia.
  change (2 ^ 16)%Z with 65536%Z. split.
  - rewrite Z_mod_plus_full. apply Z.mod_small. exact Hw.
  - rewrite Z.div_add by lia. rewrite (Z.div_small w) by exact Hw.
    apply Z.mod_small. lia.
Qed.

(** A [WM_SIZE] whose [lParam] packs a client width [w] and height [hh]
    (16 bits each) resizes an existing render target to exactly [(w, hh)]
    pixels, keeping its dpi; without a render target nothing changes.  The
    brush and the function are kept, nothing is drawn and the result is 0. *)
Theorem wm_size_resizes_to_lparam (h : Host) (ed : HRESULT) (s : App) (w hh : Z) :
  (0 <= w < 65536)%Z -> (0 <= hh < 65536)%Z ->
  WndProcCore h ed s (WM_SIZE (w + hh * 65536)) =
    ({| m_inputFunction := m_inputFunction s;
        m_pRenderTarget := option_map (Resize w hh) (m_pRenderTarget s);
        m_pGraphLineBrush := m_pGraphLineBrush s |}, [], [], 0%Z).
Proof.
  intros Hw Hh. destruct (LOWORD_HIWORD_pack w hh Hw Hh) as [El Eh].
  unfold WndProcCore. rewrite El, Eh. unfold OnResize.
  destruct s as [f [rt|] b]; reflexivity.
Qed.

Lemma wm_size_resizes_to_lparam_witness :
  ((0 <= 800 < 65536)%Z /\ (0 <= 600 < 65536)%Z) /\
  WndProcCore example_host S_OK example_app (WM_SIZE (800 + 600 * 65536)) =
    ({| m_inputFunction := m_inputFunction example_app;
        m_pRenderTarget := option_map (Resize 800 600) (m_pRenderTarget example_app);
        m_pGraphLineBrush := m_pGraphLineBrush example_app |}, [], [], 0%Z).
Proof. split; [lia|]. apply wm_size_resizes_to_lparam; lia. Defined.

(** ** Messages other than [WM_PAINT] *)

(** No message but [WM_PAINT] draws, creates or releases a device resource:
    the brush and the function stay as they are and the render target is
    null afterwards exactly when it was before. *)
Theorem non_paint_messages_keep_resources (h : Host) (ed : HRESULT) (s : App) (m : Message) :
  m <> WM_PAINT ->
  let r := WndProcCore h ed s m in
  snd (fst r) = [] /\
  m_inputFunction (fst (fst (fst r))) = m_inputFunction s /\
  m_pGraphLineBrush (fst (fst (fst r))) = m_pGraphLineBrush s /\
  (m_pRenderTarget (fst (fst (fst r))) = None <-> m_pRenderTarget s = None).
Proof.
  intros Hm. cbv zeta. destruct m as [l| | | |].
  - unfold WndProcCore, OnResize. cbn [fst snd].
    destruct (m_pRenderTarget s) eqn:E; cbn.
    + repeat split; try reflexivity; intros H; discriminate H.
    + repeat split; tauto.
  - cbn. repeat split; tauto.
  - exfalso. apply Hm. reflexivity.
  - cbn. repeat split; tauto.
  - cbn. repeat split; tauto.
Qed.

Lemma non_paint_messages_keep_resources_witness :
  WM_DISPLAYCHANGE <> WM_PAINT /\
  let r := WndProcCore example_host S_OK example_app WM_DISPLAYCHANGE in
  snd (fst r) = [] /\
  m_inputFunction (fst (fst (fst r))) = m_inputFunction example_app /\
  m_pGraphLineBrush (fst (fst (fst r))) = m_pGraphLineBrush example_app /\
  (m_pRenderTarget (fst (fst (fst r))) = None <-> m_pRenderTarget example_app = None).
Proof.
  split; [discriminate|].
  apply non_paint_messages_keep_resources. discriminate.
Defined.

(** ** [WM_PAINT] after [EndDraw] *)

(** When both resources are available and [EndDraw] returns anything but
    [D2DERR_RECREATE_TARGET], the paint handler keeps both resources; it
    validates the window when the code is a success and otherwise writes the
    code to the debug console without validating (so the window is painted
    again).  The result is 0. *)
Theorem paint_end_draw_outcome (h : Host) (ed : HRESULT) (s : App) :
  FAILED (snd (CreateDeviceResources h s)) = false -> ed <> D2DERR_RECREATE_TARGET ->
  exists calls,
    WndProcCore h ed s WM_PAINT =
      (fst (CreateDeviceResources h s),
       (if SUCCEEDED ed then [ValidateRect] else [WriteToDebugConsole ed]), calls, 0%Z) /\
    m_pRenderTarget (fst (CreateDeviceResources h s)) <> None /\
    m_pGraphLineBrush (fst (CreateDeviceResources h s)) <> None.
Proof.
  intros F Hne.
  destruct (CDR_ok h s F) as (_ & [rt Hrt] & [b Hb]).
  destruct (OnRender_ok h ed s F) as [rt' [_ E]]. cbv zeta in E.
  rewrite (proj2 (Z.eqb_neq _ _) Hne) in E.
  eexists. split; [|split; congruence].
  unfold WndProcCore. rewrite E. destruct (SUCCEEDED ed); reflexivity.
Qed.

Lemma paint_end_draw_outcome_witness :
  (FAILED (snd (CreateDeviceResources example_host (App_new example_input))) = false /\
   E_FAIL <> D2DERR_RECREATE_TARGET) /\
  exists calls,
    WndProcCore example_host E_FAIL (App_new example_input) WM_PAINT =
      (fst (CreateDeviceResources example_host (App_new example_input)),
       (if SUCCEEDED E_FAIL then [ValidateRect] else [WriteToDebugConsole E_FAIL]), calls, 0%Z) /\
    m_pRenderTarget (fst (CreateDeviceResources example_host (App_new example_input))) <> None /\
    m_pGraphLineBrush (fst (CreateDeviceResources example_host (App_new example_input))) <> None.
Proof.
  split; [split; [reflexivity | unfold E_FAIL, D2DERR_RECREATE_TARGET; lia]|].
  apply paint_end_draw_outcome; [reflexivity | unfold E_FAIL, D2DERR_RECREATE_TARGET; lia].
Defined.

(** ** Monotonicity of the transform *)

(** With [endY > startY] and a non-negative height, a larger finite value is
    drawn at a smaller (higher on screen) or equal [y]. *)
Theorem ComputePoint_y_antitone (f : InputFunction) (size : SizeF) (x1 x2 : Z) (v1 v2 : Q) :
  startY f < endY f -> 0 <= height size ->
  func f (compute_argX f size x1) = Dbl.Fin v1 ->
  func f (compute_argX f size x2) = Dbl.Fin v2 ->
  v1 <= v2 ->
  exists y1 y2, py (ComputePoint f size x1) = Dbl.Fin y1 /\
                py (ComputePoint f size x2) = Dbl.Fin y2 /\ y2 <= y1.
Proof.
  intros Hy HH E1 E2 Hv.
  do 2 eexists. split; [apply py_fin; eassumption|].
  split; [apply py_fin; eassumption|].
  assert (Hr : (v1 - startY f) / (endY f - startY f) <= (v2 - startY f) / (endY f - startY f)).
  { unfold Qdiv. apply Qmult_le_compat_r; [lra|]. apply Qinv_le_0_compat. lra. }
  assert (height size * ((v1 - startY f) / (endY f - startY f))
          <= height size * ((v2 - startY f) / (endY f - startY f))).
  { rewrite !(Qmult_comm (height size)). apply Qmult_le_compat_r; assumption. }
  lra.
Qed.

Lemma ComputePoint_y_antitone_witness :
  (startY example_input < endY example_input /\ 0 <= height example_size /\
   func example_input (compute_argX example_input example_size 100) = Dbl.Fin (600 # 640) /\
   func example_input (compute_argX example_input example_size 200) = Dbl.Fin (1200 # 640) /\
   (600 # 640) <= (1200 # 640)) /\
  exists y1 y2, py (ComputePoint example_input example_size 100) = Dbl.Fin y1 /\
                py (ComputePoint example_input example_size 200) = Dbl.Fin y2 /\ y2 <= y1.
Proof.
  split; [repeat split; try reflexivity; discriminate|].
  apply (ComputePoint_y_antitone example_input example_size 100 200 (600 # 640) (1200 # 640));
    try reflexivity; discriminate.
Defined.

(** With [endX > startX] and a positive width, the columns map to strictly
    increasing finite [argX]: the function is sampled left to right. *)
Theorem compute_argX_increasing (f : InputFunction) (size : SizeF) (x1 x2 : Z) :
  startX f < endX f -> 0 < width size -> (x1 < x2)%Z ->
  exists a1 a2, compute_argX f size x1 = Dbl.Fin a1 /\
                compute_argX f size x2 = Dbl.Fin a2 /\ a1 < a2.
Proof.
  intros Hx Hw Hlt. do 2 eexists.
  split; [apply argX_fin; exact Hw|]. split; [apply argX_fin; exact Hw|].
  rewrite Qplus_lt_l. rewrite Qmult_lt_r by lra. unfold Qdiv.
  rewrite Qmult_lt_r by (apply Qinv_lt_0_compat; exact Hw).
  rewrite <- Zlt_Qlt. exact Hlt.
Qed.

Lemma compute_argX_increasing_witness :
  (startX example_input < endX example_input /\ 0 < width example_size /\ (3 < 4)%Z) /\
  exists a1 a2, compute_argX example_input example_size 3 = Dbl.Fin a1 /\
                compute_argX example_input example_size 4 = Dbl.Fin a2 /\ a1 < a2.
Proof.
  split; [split; [reflexivity|split; [reflexivity|lia]]|].
  apply compute_argX_increasing; [reflexivity|reflexivity|lia].
Defined.


(** ** [Initialize] *)

Lemma Initialize_SUCCEEDED (ih : InitHost) :
  SUCCEEDED (fst (Initialize ih)) = true <->
  SUCCEEDED (factory_hr ih) = true /\ class_atom ih <> 0%Z /\ window_created ih = true.
Proof.
  unfold Initialize, SUCCEEDED, FAILED.
  destruct (Z.ltb_spec (factory_hr ih) 0) as [F|F]; cbn [fst].
  - rewrite Z.leb_le. split; [lia|intros [H _]; apply Z.leb_le in H; lia].
  - destruct (Z.eqb_spec (class_atom ih) 0) as [A|A]; cbn [fst].
    + split; [intros H; vm_compute in H; discriminate H | intros (_ & H & _); contradiction].
    + destruct (window_created ih); cbn [fst].
      * split; [intros _; repeat split; [apply Z.leb_le; lia | exact A] | reflexivity].
      * split; [intros H; vm_compute in H; discriminate H | intros (_ & _ & H); discriminate H].
Qed.

(** When [Initialize] fails, no window is shown, and either the factory
    could not be created and its code is returned before anything else is
    done, or [E_FAIL] is returned after reporting the Win32 error. *)
Theorem Initialize_failure_reported (ih : InitHost) :
  FAILED (fst (Initialize ih)) = true ->
  ~ In ShowWindowCall (snd (Initialize ih)) /\
  ((FAILED (factory_hr ih) = true /\ Initialize ih = (factory_hr ih, [])) \/
   (fst (Initialize ih) = E_FAIL /\ In (ReportWin32Error (last_error ih)) (snd (Initialize ih)))).
Proof.
  unfold Initialize. destruct (FAILED (factory_hr ih)) eqn:F; cbn [fst snd].
  - intros _. split; [intros []|left; split; reflexivity].
  - destruct (Z.eqb (class_atom ih) 0); cbn [fst snd].
    + intros _. split; [intros [H|[]]; discriminate H|].
      right. split; [reflexivity|left; reflexivity].
    + destruct (window_created ih); cbn [fst snd].
      * intros H. vm_compute in H. discriminate H.
      * intros _. split; [intros [H|[H|[]]]; discriminate H|].
        right. split; [reflexivity|right; left; reflexivity].
Qed.

Lemma Initialize_failure_reported_witness :
  let ih := {| factory_hr := S_OK; class_atom := 0; window_created := true;
               last_error := 1400; dpiX := 96; dpiY := 96 |} in
  FAILED (fst (Initialize ih)) = true /\
  ~ In ShowWindowCall (snd (Initialize ih)) /\
  ((FAILED (factory_hr ih) = true /\ Initialize ih = (factory_hr ih, [])) \/
   (fst (Initialize ih) = E_FAIL /\ In (ReportWin32Error (last_error ih)) (snd (Initialize ih)))).
Proof.
  cbv zeta. split; [reflexivity|]. apply Initialize_failure_reported. reflexivity.
Defined.

Lemma float_to_int_nonneg (q : Q) : 0 <= q -> float_to_int q = Qfloor q.
Proof. intros H. unfold float_to_int. apply Qle_bool_iff in H. rewrite H. reflexivity. Qed.

Lemma scaled_floor (base : Z) (dpi : Q) :
  (0 <= base)%Z -> 0 <= dpi ->
  inject_Z (float_to_int (inject_Z base * dpi / 96)) <= inject_Z base * dpi / 96 <
    inject_Z (float_to_int (inject_Z base * dpi / 96)) + 1 /\
  (96 <= dpi -> (base <= float_to_int (inject_Z base * dpi / 96))%Z).
Proof.
  intros Hb Hd.
  assert (H0 : 0 <= inject_Z base * dpi / 96).
  { apply Qle_shift_div_l; [reflexivity|]. rewrite Qmult_0_l.
    apply Qmult_le_0_compat; [|exact Hd].
    change 0 with (inject_Z 0). rewrite <- Zle_Qle. exact Hb. }
  rewrite (float_to_int_nonneg _ H0). split; [split|].
  - apply Qfloor_le.
  - pose proof (Qlt_floor (inject_Z base * dpi / 96)) as H. rewrite inject_Z_plus in H. exact H.
  - intros H96. rewrite <- (Qfloor_Z base) at 1. apply Qfloor_resp_le.
    apply Qle_shift_div_l; [reflexivity|].
    rewrite Zle_Qle in Hb. change (inject_Z 0) with 0 in Hb.
    apply Qmult_le_compat_nonneg; split; try apply Qle_refl; lra.
Qed.

(** Once the factory and the window class exist, [Initialize] asks for a
    window of [640 x 480] device independent pixels scaled to the desktop
    dpi and truncated: for non-negative dpi values the width is the whole
    part of [640 * dpiX / 96] and the height that of [480 * dpiY / 96], so
    at 96 dpi or more the window is at least [640 x 480] pixels. *)
Theorem Initialize_window_size (ih : InitHost) :
  SUCCEEDED (factory_hr ih) = true -> class_atom ih <> 0%Z ->
  0 <= dpiX ih -> 0 <= dpiY ih ->
  exists w h, In (CreateWindowCall w h) (snd (Initialize ih)) /\
    inject_Z w <= 640 * dpiX ih / 96 < inject_Z w + 1 /\
    inject_Z h <= 480 * dpiY ih / 96 < inject_Z h + 1 /\
    (96 <= dpiX ih -> (640 <= w)%Z) /\ (96 <= dpiY ih -> (480 <= h)%Z).
Proof.
  intros F A Hx Hy.
  destruct (scaled_floor 640 (dpiX ih) ltac:(lia) Hx) as [Bx Lx].
  destruct (scaled_floor 480 (dpiY ih) ltac:(lia) Hy) as [By Ly].
  exists (float_to_int (640 * dpiX ih / 96)), (float_to_int (480 * dpiY ih / 96)).
  split; [|split; [exact Bx|split; [exact By|split; [exact Lx|exact Ly]]]].
  unfold Initialize.
  replace (FAILED (factory_hr ih)) with false
    by (unfold FAILED, SUCCEEDED in *; apply Z.leb_le in F; symmetry; apply Z.ltb_ge; lia).
  rewrite (proj2 (Z.eqb_neq _ _) A).
  destruct (window_created ih); cbn; left; reflexivity.
Qed.

Lemma Initialize_window_size_witness :
  let ih := {| factory_hr := S_OK; class_atom := 49152; window_created := true;
               last_error := 0; dpiX := 144; dpiY := 120 |} in
  (SUCCEEDED (factory_hr ih) = true /\ class_atom ih <> 0%Z /\
   0 <= dpiX ih /\ 0 <= dpiY ih) /\
  exists w h, In (CreateWindowCall w h) (snd (Initialize ih)) /\
    inject_Z w <= 640 * dpiX ih / 96 < inject_Z w + 1 /\
    inject_Z h <= 480 * dpiY ih / 96 < inject_Z h + 1 /\
    (96 <= dpiX ih -> (640 <= w)%Z) /\ (96 <= dpiY ih -> (480 <= h)%Z).
Proof.
  cbv zeta. split; [split; [reflexivity|split; [cbn; lia|split; discriminate]]|].
  apply Initialize_window_size; [reflexivity|cbn; lia|discriminate|discriminate].
Defined.

(** ** [Run] and [wWinMain] *)

Lemma Run_split (s : App) (q : list QueuedMessage) :
  Run s q = (run s (dispatched q), option_map to_int32 (first_quit q)).
Proof.
  revert s. induction q as [|[w|h ed m] q IH]; intros s; [reflexivity|reflexivity|].
  cbn [Run dispatched first_quit]. rewrite IH. reflexivity.
Qed.

Lemma first_quit_app (pre post : list QueuedMessage) (code : Z) :
  forallb (fun m => negb (is_quit m)) pre = true ->
  first_quit (pre ++ WM_QUIT code :: post) = Some code.
Proof.
  induction pre as [|[w|h ed m] pre IH]; intros P; [reflexivity|discriminate P|].
  apply IH. exact P.
Qed.

Lemma run_inv (s : App) (es : list Event) : brush_needs_rt s -> brush_needs_rt (run s es).
Proof.
  unfold run. revert s. induction es as [|e es IH]; intros s Hs; [exact Hs|].
  cbn [fold_left]. apply IH, step_inv, Hs.
Qed.

Lemma to_int32_small (w : Z) : (- 2 ^ 31 <= w < 2 ^ 31)%Z -> to_int32 w = w.
Proof.
  intros Hw. unfold to_int32. cbv zeta.
  change (2 ^ 32)%Z with 4294967296%Z. change (2 ^ 31)%Z with 2147483648%Z in *.
  pose proof (Z.mod_pos_bound w 4294967296 ltac:(lia)).
  pose proof (Z.div_mod w 4294967296 ltac:(lia)).
  destruct (Z.leb_spec 2147483648 (w mod 4294967296)); lia.
Qed.

(** [Run] started on a fresh [App] returns the [wParam] of the first
    [WM_QUIT] narrowed to [int] (its low 32 bits, two's complement; the
    [wParam] itself when it fits an [int]), or keeps waiting when none comes;
    the [App] it leaves is the one reached by dispatching, in order, exactly
    the messages before that [WM_QUIT], and it holds a brush only alongside
    a render target. *)
Theorem Run_returns_at_first_quit (f : InputFunction) (q : list QueuedMessage) :
  snd (Run (App_new f) q) = option_map to_int32 (first_quit q) /\
  fst (Run (App_new f) q) = run (App_new f) (dispatched q) /\
  brush_needs_rt (fst (Run (App_new f) q)).
Proof.
  rewrite Run_split. cbn [fst snd]. split; [reflexivity|split; [reflexivity|]].
  apply run_inv. intros Hb. exfalso. apply Hb. reflexivity.
Qed.

(** [wWinMain] exits with code 1, without running the message loop,
    whenever [CoInitialize] fails or [Initialize] fails (the factory, the
    window class or the window cannot be created). *)
Theorem wWinMain_startup_failure (coinit_hr : HRESULT) (ih : InitHost)
    (sin : Dbl.t -> Dbl.t) (q : list QueuedMessage) :
  FAILED coinit_hr = true \/ FAILED (factory_hr ih) = true \/
  class_atom ih = 0%Z \/ window_created ih = false ->
  wWinMain coinit_hr ih sin q = Some 1%Z.
Proof.
  intros Hf. unfold wWinMain.
  destruct (SUCCEEDED coinit_hr) eqn:C; [|reflexivity].
  destruct (SUCCEEDED (fst (Initialize ih))) eqn:I; [|reflexivity].
  exfalso. apply Initialize_SUCCEEDED in I as (F & A & W).
  unfold FAILED, SUCCEEDED in *.
  destruct Hf as [H|[H|[H|H]]].
  - apply Z.ltb_lt in H. apply Z.leb_le in C. lia.
  - apply Z.ltb_lt in H. apply Z.leb_le in F. lia.
  - contradiction.
  - congruence.
Qed.

Lemma wWinMain_startup_failure_witness :
  let ih := {| factory_hr := S_OK; class_atom := 49152; window_created := false;
               last_error := 1407; dpiX := 96; dpiY := 96 |} in
  (FAILED S_OK = true \/ FAILED (factory_hr ih) = true \/
   class_atom ih = 0%Z \/ window_created ih = false) /\
  wWinMain S_OK ih (fun x => x) [] = Some 1%Z.
Proof.
  cbv zeta. split; [right; right; right; reflexivity|].
  apply wWinMain_startup_failure. right; right; right; reflexivity.
Defined.

(** When [CoInitialize] and every step of [Initialize] succeed, [wWinMain]
    returns the [wParam] of the first [WM_QUIT] the loop receives narrowed
    to [int] (the [wParam] itself when it fits an [int]), whatever messages
    came before it or would come after it. *)
Theorem wWinMain_exit_code (coinit_hr : HRESULT) (ih : InitHost) (sin : Dbl.t -> Dbl.t)
    (pre post : list QueuedMessage) (code : Z) :
  SUCCEEDED coinit_hr = true -> SUCCEEDED (factory_hr ih) = true ->
  class_atom ih <> 0%Z -> window_created ih = true ->
  forallb (fun m => negb (is_quit m)) pre = true ->
  wWinMain coinit_hr ih sin (pre ++ WM_QUIT code :: post) = Some (to_int32 code) /\
  ((- 2 ^ 31 <= code < 2 ^ 31)%Z -> to_int32 code = code).
Proof.
  intros C F A W P. split; [|apply to_int32_small].
  unfold wWinMain. rewrite C.
  assert (I : SUCCEEDED (fst (Initialize ih)) = true)
    by (apply Initialize_SUCCEEDED; auto).
  cbv zeta. rewrite I, Run_split. cbn [snd]. rewrite first_quit_app by exact P.
  reflexivity.
Qed.

Lemma wWinMain_exit_code_witness :
  let ih := {| factory_hr := S_OK; class_atom := 49152; window_created := true;
               last_error := 0; dpiX := 96; dpiY := 96 |} in
  let pre := [Posted example_host S_OK WM_PAINT; Posted example_host S_OK WM_DESTROY] in
  (SUCCEEDED S_OK = true /\ SUCCEEDED (factory_hr ih) = true /\
   class_atom ih <> 0%Z /\ window_created ih = true /\
   forallb (fun m => negb (is_quit m)) pre = true) /\
  wWinMain S_OK ih (fun x => x) (pre ++ WM_QUIT (2 ^ 32 + 7) :: [Posted example_host S_OK WM_PAINT])
  = Some (to_int32 (2 ^ 32 + 7)) /\
  ((- 2 ^ 31 <= 2 ^ 32 + 7 < 2 ^ 31)%Z -> to_int32 (2 ^ 32 + 7) = (2 ^ 32 + 7)%Z).
Proof.
  cbv zeta. split; [repeat split; try reflexivity; cbn; lia|].
  apply wWinMain_exit_code; try reflexivity. cbn; lia.
Defined.

(** ** [WndProc] *)

(** Every message the window receives before [WM_CREATE] goes to
    [DefWindowProc] and neither changes the [App] nor draws; from
    [WM_CREATE] on, the window is handled as if those messages had never
    come. *)
Theorem WndProc_before_create (s : App) (ms ms' : list (Host * HRESULT * Z * WindowMessage))
    (c : Host * HRESULT * Z * WindowMessage) :
  Forall (fun e => snd e <> WM_CREATE) ms -> snd c = WM_CREATE ->
  WndProc_run false s (ms ++ c :: ms') = WndProc_run true s ms'.
Proof.
  intros Hms Hc. induction Hms as [|[[[h ed] d] m] ms Hm _ IH].
  - destruct c as [[[h ed] d] m]. cbn in Hc. subst m. cbn [app WndProc_run WndProc].
    destruct (WndProc_run true s ms') as [[u s''] calls]. reflexivity.
  - cbn in Hm. destruct m as [|m]; [contradiction|].
    cbn [app WndProc_run WndProc]. rewrite IH.
    destruct (WndProc_run true s ms') as [[u s''] calls]. reflexivity.
Qed.

Lemma WndProc_before_create_witness :
  (Forall (fun e : Host * HRESULT * Z * WindowMessage => snd e <> WM_CREATE)
     [(example_host, S_OK, 0%Z, Dispatched WM_PAINT)] /\
   snd (example_host, S_OK, 0%Z, WM_CREATE) = WM_CREATE) /\
  WndProc_run false (App_new example_input)
    ([(example_host, S_OK, 0%Z, Dispatched WM_PAINT)]
     ++ (example_host, S_OK, 0%Z, WM_CREATE) :: [(example_host, S_OK, 0%Z, Dispatched WM_PAINT)])
  = WndProc_run true (App_new example_input) [(example_host, S_OK, 0%Z, Dispatched WM_PAINT)].
Proof.
  assert (H : Forall (fun e : Host * HRESULT * Z * WindowMessage => snd e <> WM_CREATE)
                [(example_host, S_OK, 0%Z, Dispatched WM_PAINT)])
    by (constructor; [discriminate|constructor]).
  split; [split; [exact H|reflexivity]|].
  apply WndProc_before_create; [exact H|reflexivity].
Defined.

(** ** Resources are created once *)

(** Once [CreateDeviceResources] has succeeded, a later call, whatever the
    host would answer to [CreateHwndRenderTarget] and
    [CreateSolidColorBrush], creates nothing, keeps both resources and
    returns [S_OK]. *)
Theorem resources_created_once (h h' : Host) (s : App) :
  FAILED (snd (CreateDeviceResources h s)) = false ->
  CreateDeviceResources h' (fst (CreateDeviceResources h s))
  = (fst (CreateDeviceResources h s), S_OK).
Proof.
  intros F. destruct (CDR_ok h s F) as (_ & [rt Hrt] & [b Hb]).
  unfold CreateDeviceResources at 1. rewrite Hrt. cbn [fst snd FAILED S_OK Z.ltb Z.compare].
  rewrite Hb. reflexivity.
Qed.

Lemma resources_created_once_witness :
  FAILED (snd (CreateDeviceResources example_host (App_new example_input))) = false /\
  CreateDeviceResources rt_failing_host (fst (CreateDeviceResources example_host (App_new example_input)))
  = (fst (CreateDeviceResources example_host (App_new example_input)), S_OK).
Proof. split; [reflexivity|]. apply resources_created_once. reflexivity. Defined.
